(** * ESP32 web-server sketch: device state, routes and sampling loop

    A shallow embedding of [49_WebServer_Control_by_Web_or_Python.ino].

    The sketch keeps four global variables (LED, relay, last analog
    reading, last button reading), drives two output pins, samples two
    input pins, and answers a fixed set of HTTP routes with small JSON
    documents.  Everything the sketch does is a state transformer on a
    [World]: the sketch's globals, the board's pins, the read-only
    platform data and the responses handed to the HTTP transport. *)

From Stdlib Require Import ZArith QArith Qabs List Lia.
From Stdlib Require Import Floats.PrimFloat Floats.FloatOps Floats.SpecFloat.
From Stdlib Require Import Uint63.
From stdpp Require Import base option gmap strings.

Local Open Scope string_scope.
Local Open Scope Z_scope.

(** ** Arduino core: pins *)

(** [HIGH] and [LOW] of [Arduino.h]. *)
Definition HIGH : Z := 1.
Definition LOW : Z := 0.

Inductive PinMode := INPUT | OUTPUT.

(** Pin numbers of the sketch. *)
Definition ledPin : Z := 27.
Definition relayPin : Z := 4.
Definition analogPin : Z := 34.
Definition buttonPin : Z := 35.

(** The board: the direction of each pin, the output latch the sketch
    writes, and the two kinds of input the outside world presents. *)
Record Board := mkBoard {
  gpio_mode : gmap Z PinMode;
  gpio_out : gmap Z bool;
  gpio_in : gmap Z bool;
  adc_in : gmap Z Z
}.

(** Read-only platform data used by [/api/device/info]. *)
Record Platform := mkPlatform {
  localIP : string;
  macAddress : string;
  freeHeap : Z;
  efuseMac : Z
}.

(** ** ArduinoJson documents *)

Inductive JsonVariant :=
| JBool (b : bool)
| JInt (z : Z)
| JFloat (f : float)
| JString (s : string).

(** A document is an object whose members keep their insertion order.
    The capacities the sketch creates its documents with (256, 512 and
    1024 bytes) exceed what it stores in them, so capacity is left out. *)
Definition JsonDocument := list (string * JsonVariant).

(** [doc[key] = v]: overwrite the member in place, or append it. *)
Fixpoint doc_set (key : string) (v : JsonVariant) (doc : JsonDocument)
  : JsonDocument :=
  match doc with
  | [] => [(key, v)]
  | (k, v0) :: rest =>
      if String.eqb k key then (k, v) :: rest
      else (k, v0) :: doc_set key v rest
  end.

Fixpoint doc_get (key : string) (doc : JsonDocument) : option JsonVariant :=
  match doc with
  | [] => None
  | (k, v) :: rest => if String.eqb k key then Some v else doc_get key rest
  end.

(** ** HTTP transport *)

(** What [server.send] is given.  [serializeJson] belongs to ArduinoJson;
    the model keeps the document that is serialised. *)
Inductive Body :=
| Text (s : string)
| Serialized (doc : JsonDocument).

Definition serializeJson (doc : JsonDocument) : Body := Serialized doc.

Record Response := mkResponse {
  code : Z;
  content_type : string;
  content : Body
}.

Inductive HTTPMethod :=
| HTTP_ANY
| HTTP_DELETE | HTTP_GET | HTTP_HEAD | HTTP_POST | HTTP_PUT
| HTTP_CONNECT | HTTP_OPTIONS | HTTP_TRACE | HTTP_PATCH.

Global Instance HTTPMethod_eq_dec : EqDecision HTTPMethod.
Proof. solve_decision. Defined.

Record Request := mkRequest {
  req_method : HTTPMethod;
  req_uri : string
}.

(** ** The world of the sketch *)

(** The global variables of the sketch ([html] is the page built at
    static initialisation). *)
Record Globals := mkGlobals {
  ledState : bool;
  relayState : bool;
  analogValue : Z;
  buttonState : bool;
  html : string
}.

Record World := mkWorld {
  vars : Globals;
  board : Board;
  platform : Platform;
  sent : list Response
}.

(** Sketch code runs in a state monad over [World]. *)
Definition Sketch (A : Type) : Type := World -> A * World.

Global Instance Sketch_ret : MRet Sketch := fun A (a : A) w => (a, w).
Global Instance Sketch_bind : MBind Sketch :=
  fun A B (k : A -> Sketch B) (m : Sketch A) w =>
    let (a, w') := m w in k a w'.

Definition exec {A} (m : Sketch A) (w : World) : World := snd (m w).

Definition get_vars : Sketch Globals := fun w => (vars w, w).
Definition put_vars (g : Globals) : Sketch unit :=
  fun w => (tt, mkWorld g (board w) (platform w) (sent w)).
Definition get_board : Sketch Board := fun w => (board w, w).
Definition put_board (b : Board) : Sketch unit :=
  fun w => (tt, mkWorld (vars w) b (platform w) (sent w)).
Definition get_platform : Sketch Platform := fun w => (platform w, w).

(** Assignments to the globals. *)
Definition set_ledState (b : bool) : Sketch unit :=
  g ← get_vars;
  put_vars (mkGlobals b (relayState g) (analogValue g) (buttonState g) (html g)).
Definition set_relayState (b : bool) : Sketch unit :=
  g ← get_vars;
  put_vars (mkGlobals (ledState g) b (analogValue g) (buttonState g) (html g)).
Definition set_analogValue (z : Z) : Sketch unit :=
  g ← get_vars;
  put_vars (mkGlobals (ledState g) (relayState g) z (buttonState g) (html g)).
Definition set_buttonState (b : bool) : Sketch unit :=
  g ← get_vars;
  put_vars (mkGlobals (ledState g) (relayState g) (analogValue g) b (html g)).

(** C++ conversions between [bool] and integers. *)
Definition bool_to_int (b : bool) : Z := if b then 1 else 0.
Definition int_to_bool (z : Z) : bool := negb (z =? 0).

(** [pinMode], [digitalWrite], [digitalRead], [analogRead]. *)
Definition pinMode (pin : Z) (m : PinMode) : Sketch unit :=
  b ← get_board;
  put_board (mkBoard (<[pin := m]> (gpio_mode b)) (gpio_out b) (gpio_in b) (adc_in b)).

Definition digitalWrite (pin : Z) (val : Z) : Sketch unit :=
  b ← get_board;
  put_board (mkBoard (gpio_mode b) (<[pin := int_to_bool val]> (gpio_out b))
                     (gpio_in b) (adc_in b)).

Definition digitalRead (pin : Z) : Sketch Z :=
  b ← get_board;
  mret (bool_to_int (default false (gpio_in b !! pin))).

(** [analogRead] returns a [uint16_t]. *)
Definition uint16_t (z : Z) : Z := z mod 65536.

Definition analogRead (pin : Z) : Sketch Z :=
  b ← get_board;
  mret (uint16_t (default 0 (adc_in b !! pin))).

(** [delay] only lets time pass; time is not part of the world. *)
Definition delay (ms : Z) : Sketch unit := mret tt.

(** [server.send]: hand one response to the transport. *)
Definition server_send (c : Z) (ctype : string) (payload : Body) : Sketch unit :=
  fun w => (tt, mkWorld (vars w) (board w) (platform w)
                        (sent w ++ [mkResponse c ctype payload])).

(** The level the output latch holds on a pin. *)
Definition pin_output (pin : Z) (w : World) : bool :=
  default false (gpio_out (board w) !! pin).

(** ** Arithmetic of the voltage field *)

(** Conversion of an [int] to [double]; exact for every 32-bit value. *)
Definition int_to_double (z : Z) : float :=
  if z <? 0 then PrimFloat.opp (PrimFloat.of_uint63 (Uint63.of_Z (- z)))
  else PrimFloat.of_uint63 (Uint63.of_Z z).

(** The literals [3.3] and [4095.0] as binary64 values. *)
Definition lit_3_3 : float := 0x1.a666666666666p+1%float.
Definition lit_4095 : float := 4095%float.

(** [(analogValue * 3.3) / 4095.0], evaluated in binary64. *)
Definition voltage_of (analog : Z) : float :=
  PrimFloat.div (PrimFloat.mul (int_to_double analog) lit_3_3) lit_4095.

(** The rational a finite binary64 value denotes. *)
Definition SF2Q (f : spec_float) : option Q :=
  match f with
  | S754_zero _ => Some 0%Q
  | S754_finite s m e =>
      let mz := if s then Z.neg m else Z.pos m in
      Some (if e <? 0 then Qmake mz (Z.to_pos (2 ^ (- e)))
            else Qmake (mz * 2 ^ e) 1)
  | S754_infinity _ | S754_nan => None
  end.

Definition double_to_Q (f : float) : option Q := SF2Q (Prim2SF f).

(** ** Route handlers *)

Definition sendSuccessResponse (message : string) : Sketch unit :=
  g ← get_vars;
  let doc := [] in
  let doc := doc_set "success" (JBool true) doc in
  let doc := doc_set "message" (JString message) doc in
  let doc := doc_set "led_state" (JBool (ledState g)) doc in
  let doc := doc_set "relay_state" (JBool (relayState g)) doc in
  server_send 200 "application/json" (serializeJson doc).

Definition root_handler : Sketch unit :=
  g ← get_vars;
  server_send 200 "text/html" (Text (html g)).

Definition device_info_handler : Sketch unit :=
  p ← get_platform;
  let doc := [] in
  let doc := doc_set "device" (JString "ESP32") doc in
  let doc := doc_set "ip" (JString (localIP p)) doc in
  let doc := doc_set "mac" (JString (macAddress p)) doc in
  let doc := doc_set "free_heap" (JInt (freeHeap p)) doc in
  let doc := doc_set "chip_id" (JInt (efuseMac p)) doc in
  server_send 200 "application/json" (serializeJson doc).

Definition led_on_handler : Sketch unit :=
  digitalWrite ledPin HIGH;;
  set_ledState true;;
  sendSuccessResponse "LED已打开".

Definition led_off_handler : Sketch unit :=
  digitalWrite ledPin LOW;;
  set_ledState false;;
  sendSuccessResponse "LED已关闭".

Definition led_toggle_handler : Sketch unit :=
  g ← get_vars;
  set_ledState (negb (ledState g));;
  g ← get_vars;
  digitalWrite ledPin (bool_to_int (ledState g));;
  g ← get_vars;
  sendSuccessResponse (if ledState g then "LED已打开" else "LED已关闭").

Definition relay_on_handler : Sketch unit :=
  digitalWrite relayPin HIGH;;
  set_relayState true;;
  sendSuccessResponse "继电器已打开".

Definition relay_off_handler : Sketch unit :=
  digitalWrite relayPin LOW;;
  set_relayState false;;
  sendSuccessResponse "继电器已关闭".

Definition sensor_data_handler : Sketch unit :=
  g ← get_vars;
  let doc := [] in
  let doc := doc_set "analog_value" (JInt (analogValue g)) doc in
  let doc := doc_set "voltage" (JFloat (voltage_of (analogValue g))) doc in
  let doc := doc_set "button_pressed" (JBool (buttonState g)) doc in
  let doc := doc_set "led_state" (JBool (ledState g)) doc in
  let doc := doc_set "relay_state" (JBool (relayState g)) doc in
  server_send 200 "application/json" (serializeJson doc).

Definition not_found_handler : Sketch unit :=
  let doc := [] in
  let doc := doc_set "error" (JBool true) doc in
  let doc := doc_set "message" (JString "API端点不存在") doc in
  server_send 404 "application/json" (serializeJson doc).

(** ** The WebServer object *)

(** A registered route: [server.on(uri, method, fn)]. *)
Record RequestHandler := mkHandler {
  h_uri : string;
  h_method : HTTPMethod;
  h_fn : Sketch unit
}.

Record WebServer := mkServer {
  handlers : list RequestHandler;
  notFoundHandler : option (Sketch unit)
}.

Definition WebServer_new : WebServer := mkServer [] None.

Definition server_on (uri : string) (m : HTTPMethod) (fn : Sketch unit)
  (srv : WebServer) : WebServer :=
  mkServer (handlers srv ++ [mkHandler uri m fn]) (notFoundHandler srv).

Definition server_onNotFound (fn : Sketch unit) (srv : WebServer) : WebServer :=
  mkServer (handlers srv) (Some fn).

(** A handler takes a request when its method is [HTTP_ANY] or the
    request's, and its uri is the request's. *)
Definition canHandle (h : RequestHandler) (m : HTTPMethod) (uri : string) : bool :=
  (bool_decide (h_method h = HTTP_ANY) || bool_decide (h_method h = m))
  && String.eqb (h_uri h) uri.

(** The first handler that takes the request runs; without one the
    not-found handler runs, and without that the library's own 404. *)
Definition handleRequest (srv : WebServer) (r : Request) : Sketch unit :=
  match find (fun h => canHandle h (req_method r) (req_uri r)) (handlers srv) with
  | Some h => h_fn h
  | None =>
      match notFoundHandler srv with
      | Some fn => fn
      | None => server_send 404 "text/plain" (Text ("Not found: " +:+ req_uri r))
      end
  end.

(** [server.handleClient()]: serve the pending request, if there is one. *)
Definition handleClient (srv : WebServer) (client : option Request) : Sketch unit :=
  match client with
  | Some r => handleRequest srv r
  | None => mret tt
  end.

Definition setupRoutes (srv : WebServer) : WebServer :=
  let srv := server_on "/" HTTP_GET root_handler srv in
  let srv := server_on "/api/device/info" HTTP_GET device_info_handler srv in
  let srv := server_on "/api/led/on" HTTP_GET led_on_handler srv in
  let srv := server_on "/api/led/off" HTTP_GET led_off_handler srv in
  let srv := server_on "/api/led/toggle" HTTP_GET led_toggle_handler srv in
  let srv := server_on "/api/relay/on" HTTP_GET relay_on_handler srv in
  let srv := server_on "/api/relay/off" HTTP_GET relay_off_handler srv in
  let srv := server_on "/api/sensor/data" HTTP_GET sensor_data_handler srv in
  server_onNotFound not_found_handler srv.

(** The global [server] once [setup] has called [setupRoutes]. *)
Definition server : WebServer := setupRoutes WebServer_new.

(** ** [setup] and [loop] *)

Definition updateSensorData : Sketch unit :=
  a ← analogRead analogPin;
  set_analogValue a;;
  d ← digitalRead buttonPin;
  set_buttonState (int_to_bool d).

(** The GPIO part of [setup].  Serial output, the wait for the WiFi
    association and [server.begin] touch nothing of the world. *)
Definition setup : Sketch unit :=
  pinMode ledPin OUTPUT;;
  pinMode relayPin OUTPUT;;
  pinMode buttonPin INPUT;;
  digitalWrite ledPin LOW;;
  digitalWrite relayPin LOW.

Definition loop (client : option Request) : Sketch unit :=
  handleClient server client;;
  updateSensorData;;
  delay 10.

(** The world at power-on: the globals hold their initialisers. *)
Definition power_on (b : Board) (p : Platform) (page : string) : World :=
  mkWorld (mkGlobals false false 0 false page) b p [].

(** The world when [setup] returns. *)
Definition booted (b : Board) (p : Platform) (page : string) : World :=
  exec setup (power_on b p page).

(** ** Runs *)

(** Serving one request, and a sequence of requests. *)
Definition serve (r : Request) (w : World) : World :=
  exec (handleRequest server r) w.

Definition serve_all (rs : list Request) (w : World) : World :=
  fold_left (fun w r => serve r w) rs w.

(** The worlds observed after each request of a sequence. *)
Fixpoint serve_trace (rs : list Request) (w : World) : list World :=
  match rs with
  | [] => []
  | r :: rs' => serve r w :: serve_trace rs' (serve r w)
  end.

(** One turn of the main loop: the outside world presents its input
    levels, a client may have a request pending, and [loop] runs once. *)
Record Turn := mkTurn {
  client : option Request;
  analog_level : Z;
  button_level : bool
}.

Definition present (a : Z) (d : bool) : Sketch unit :=
  b ← get_board;
  put_board (mkBoard (gpio_mode b) (gpio_out b)
                     (<[buttonPin := d]> (gpio_in b))
                     (<[analogPin := a]> (adc_in b))).

Definition turn (t : Turn) : Sketch unit :=
  present (analog_level t) (button_level t);;
  loop (client t).

Definition run (ts : list Turn) (w : World) : World :=
  fold_left (fun w t => exec (turn t) w) ts w.

(** The requests of the LED and relay routes. *)
Inductive LedOp := LedOn | LedOff | LedToggle.
Inductive RelayOp := RelayOn | RelayOff.

Definition led_request (op : LedOp) : Request :=
  mkRequest HTTP_GET
    match op with
    | LedOn => "/api/led/on"
    | LedOff => "/api/led/off"
    | LedToggle => "/api/led/toggle"
    end.

Definition relay_request (op : RelayOp) : Request :=
  mkRequest HTTP_GET
    match op with
    | RelayOn => "/api/relay/on"
    | RelayOff => "/api/relay/off"
    end.

(** The boolean fold the LED requests are specified by. *)
Definition led_fold (b : bool) (op : LedOp) : bool :=
  match op with
  | LedOn => true
  | LedOff => false
  | LedToggle => negb b
  end.

(** Both output pins show what the state variables say. *)
Definition pins_follow_state (w : World) : Prop :=
  pin_output ledPin w = ledState (vars w)
  /\ pin_output relayPin w = relayState (vars w).

(** The LED pin is driven as an output and shows the LED variable. *)
Definition led_pin_shows_state (w : World) : Prop :=
  gpio_mode (board w) !! ledPin = Some OUTPUT
  /\ pin_output ledPin w = ledState (vars w).

(** ** Closed forms and vocabulary of the statements *)

(** The document [sendSuccessResponse] builds. *)
Definition success_doc (message : string) (led relay : bool) : JsonDocument :=
  [("success", JBool true); ("message", JString message);
   ("led_state", JBool led); ("relay_state", JBool relay)].

Definition success_response (message : string) (led relay : bool) : Response :=
  mkResponse 200 "application/json" (Serialized (success_doc message led relay)).

Definition not_found_response : Response :=
  mkResponse 404 "application/json"
    (Serialized [("error", JBool true); ("message", JString "API端点不存在")]).

Definition sensor_doc (g : Globals) : JsonDocument :=
  [("analog_value", JInt (analogValue g));
   ("voltage", JFloat (voltage_of (analogValue g)));
   ("button_pressed", JBool (buttonState g));
   ("led_state", JBool (ledState g));
   ("relay_state", JBool (relayState g))].

Definition info_doc (p : Platform) : JsonDocument :=
  [("device", JString "ESP32"); ("ip", JString (localIP p));
   ("mac", JString (macAddress p)); ("free_heap", JInt (freeHeap p));
   ("chip_id", JInt (efuseMac p))].

(** A world that differs from [w] by one more response. *)
Definition replied (resp : Response) (w : World) : World :=
  mkWorld (vars w) (board w) (platform w) (sent w ++ [resp]).

Definition led_message (b : bool) : string :=
  if b then "LED已打开" else "LED已关闭".

Definition relay_message (b : bool) : string :=
  if b then "继电器已打开" else "继电器已关闭".

(** The world after an LED route commanded level [b]. *)
Definition led_written (b : bool) (w : World) : World :=
  mkWorld
    (mkGlobals b (relayState (vars w)) (analogValue (vars w))
               (buttonState (vars w)) (html (vars w)))
    (mkBoard (gpio_mode (board w)) (<[ledPin := b]> (gpio_out (board w)))
             (gpio_in (board w)) (adc_in (board w)))
    (platform w)
    (sent w ++ [success_response (led_message b) b (relayState (vars w))]).

(** The world after a relay route commanded level [b]. *)
Definition relay_written (b : bool) (w : World) : World :=
  mkWorld
    (mkGlobals (ledState (vars w)) b (analogValue (vars w))
               (buttonState (vars w)) (html (vars w)))
    (mkBoard (gpio_mode (board w)) (<[relayPin := b]> (gpio_out (board w)))
             (gpio_in (board w)) (adc_in (board w)))
    (platform w)
    (sent w ++ [success_response (relay_message b) (ledState (vars w)) b]).

(** The world after a sampling pass that read [a] and [d]. *)
Definition sampled (a : Z) (d : bool) (w : World) : World :=
  mkWorld
    (mkGlobals (ledState (vars w)) (relayState (vars w)) a d (html (vars w)))
    (board w) (platform w) (sent w).

(** The (method, path) pairs of the route table. *)
Definition fixed_routes : list (HTTPMethod * string) :=
  [(HTTP_GET, "/"); (HTTP_GET, "/api/device/info");
   (HTTP_GET, "/api/led/on"); (HTTP_GET, "/api/led/off");
   (HTTP_GET, "/api/led/toggle");
   (HTTP_GET, "/api/relay/on"); (HTTP_GET, "/api/relay/off");
   (HTTP_GET, "/api/sensor/data")].

(** What [handleRequest] runs, by cases on the request. *)
Inductive dispatched (r : Request) : Sketch unit -> Prop :=
| to_root : r = mkRequest HTTP_GET "/" -> dispatched r root_handler
| to_info : r = mkRequest HTTP_GET "/api/device/info" ->
    dispatched r device_info_handler
| to_led_on : r = led_request LedOn -> dispatched r led_on_handler
| to_led_off : r = led_request LedOff -> dispatched r led_off_handler
| to_led_toggle : r = led_request LedToggle -> dispatched r led_toggle_handler
| to_relay_on : r = relay_request RelayOn -> dispatched r relay_on_handler
| to_relay_off : r = relay_request RelayOff -> dispatched r relay_off_handler
| to_sensor : r = mkRequest HTTP_GET "/api/sensor/data" ->
    dispatched r sensor_data_handler
| to_not_found : (req_method r, req_uri r) ∉ fixed_routes ->
    dispatched r not_found_handler.

Definition relay_level (op : RelayOp) : bool :=
  match op with
  | RelayOn => true
  | RelayOff => false
  end.

(** The five actuator routes. *)
Inductive ActuatorOp :=
| OnLed (op : LedOp)
| OnRelay (op : RelayOp).

Definition actuator_request (a : ActuatorOp) : Request :=
  match a with
  | OnLed op => led_request op
  | OnRelay op => relay_request op
  end.

(** Requests of the routes that only read, and requests of no route. *)
Definition read_only (r : Request) : Prop :=
  r = mkRequest HTTP_GET "/"
  \/ r = mkRequest HTTP_GET "/api/device/info"
  \/ r = mkRequest HTTP_GET "/api/sensor/data"
  \/ (req_method r, req_uri r) ∉ fixed_routes.

(** The three shapes the world can take after one request. *)
Inductive served (r : Request) (w : World) : World -> Prop :=
| served_read resp : read_only r -> served r w (replied resp w)
| served_led op :
    r = led_request op ->
    served r w (led_written (led_fold (ledState (vars w)) op) w)
| served_relay op :
    r = relay_request op ->
    served r w (relay_written (relay_level op) w).

Definition presented (a : Z) (d : bool) (w : World) : World :=
  mkWorld (vars w)
    (mkBoard (gpio_mode (board w)) (gpio_out (board w))
             (<[buttonPin := d]> (gpio_in (board w)))
             (<[analogPin := a]> (adc_in (board w))))
    (platform w) (sent w).

Definition handled (c : option Request) (w : World) : World :=
  match c with
  | Some r => serve r w
  | None => w
  end.

Definition sensor_request : Request := mkRequest HTTP_GET "/api/sensor/data".

(** The voltage the specification names, over the rationals. *)
Definition voltage_exact (a : Z) : Q := (inject_Z a * (33 # 10)) / inject_Z 4095.

(** The tolerance: [2^-50], below [10^-15]. *)
Definition voltage_tolerance : Q := 1 # (2 ^ 50).

Definition voltage_within_tolerance (a : Z) : bool :=
  match double_to_Q (voltage_of a) with
  | Some q => Qle_bool (Qabs (q - voltage_exact a)) voltage_tolerance
  | None => false
  end.

(** ** Vocabulary of the further properties *)

(** The response a request was answered with: the last one sent. *)
Definition answer (r : Request) (w : World) : option Response :=
  last (sent (serve r w)).

(** The number of turns that had a request pending. *)
Definition requests_in (ts : list Turn) : nat :=
  length (filter (fun t => is_Some (client t)) ts).

(** The member names of a response's document. *)
Definition member_names (resp : Response) : list string :=
  match content resp with
  | Serialized doc => map fst doc
  | Text _ => []
  end.

Global Instance Request_eq_dec : EqDecision Request.
Proof. solve_decision. Defined.

Definition root_request : Request := mkRequest HTTP_GET "/".

(** What no turn of the loop changes: the page, the platform data, the
    pin directions, and every output latch but the LED's and the
    relay's. *)
Definition same_frame (w w' : World) : Prop :=
  html (vars w') = html (vars w)
  /\ platform w' = platform w
  /\ gpio_mode (board w') = gpio_mode (board w)
  /\ forall pin, pin <> ledPin -> pin <> relayPin ->
       gpio_out (board w') !! pin = gpio_out (board w) !! pin.


(** The rational value of the voltage computed for a reading ([0] if
    the double were not finite). *)
Definition voltage_Q (a : Z) : Q := default 0%Q (double_to_Q (voltage_of a)).

(** The voltage of reading [a] is finite, at least 0, at most the
    double [3.3], and below the voltage of reading [a + 1]. *)
Definition voltage_step_checked (a : Z) : bool :=
  match double_to_Q (voltage_of a), double_to_Q (voltage_of (a + 1)),
        double_to_Q lit_3_3 with
  | Some q, Some q', Some top =>
      Qle_bool 0 q && Qle_bool q' top && negb (Qle_bool q' q)
  | _, _, _ => false
  end.

(** ** Boot: serial console, WiFi association, server start *)

(** The compiled-in network name and credential. *)
Definition ssid : string := "Tom".
Definition password : string := "11111111".

(** [wl_status_t] of the WiFi library. *)
Inductive wl_status_t :=
| WL_NO_SHIELD | WL_IDLE_STATUS | WL_NO_SSID_AVAIL | WL_SCAN_COMPLETED
| WL_CONNECTED | WL_CONNECT_FAILED | WL_CONNECTION_LOST | WL_DISCONNECTED.

Global Instance wl_status_t_eq_dec : EqDecision wl_status_t.
Proof. solve_decision. Defined.

(** What [Serial.print] and [Serial.println] write: texts, numbers and
    line ends, in order. *)
Inductive SerialItem :=
| SText (s : string)
| SNumber (z : Z)
| SNewline.

(** The radio as the sketch sees it: [status_at n] is what the [n]-th
    call of [WiFi.status()] returns, [polls] counts the calls made,
    [joining] is what [WiFi.begin] was given. *)
Record Radio := mkRadio {
  status_at : nat -> wl_status_t;
  polls : nat;
  joining : option (string * string);
  rssi : Z
}.

(** The whole machine during [setup]: the world of the loop, the global
    [server] object and whether [server.begin] was called, the serial
    output, and the radio. *)
Record Machine := mkMachine {
  world : World;
  web : WebServer;
  listening : bool;
  serial_out : list SerialItem;
  radio : Radio
}.

(** Boot code may wait for ever; [None] is a wait cut short by the
    fuel, with the machine as it was left. *)
Definition Boot (A : Type) : Type := Machine -> option A * Machine.

Global Instance Boot_ret : MRet Boot := fun A (a : A) m => (Some a, m).
Global Instance Boot_bind : MBind Boot :=
  fun A B (k : A -> Boot B) (c : Boot A) m =>
    match c m with
    | (Some a, m') => k a m'
    | (None, m') => (None, m')
    end.

(** Sketch code run on the machine's world. *)
Definition lift {A} (s : Sketch A) : Boot A :=
  fun m =>
    let (a, w') := s (world m) in
    (Some a, mkMachine w' (web m) (listening m) (serial_out m) (radio m)).

Definition serial_write (items : list SerialItem) : Boot unit :=
  fun m => (Some tt, mkMachine (world m) (web m) (listening m)
                               (serial_out m ++ items) (radio m)).

(** [Serial.begin] only configures the port. *)
Definition Serial_begin (baud : Z) : Boot unit := mret tt.
Definition Serial_print (s : string) : Boot unit := serial_write [SText s].
Definition Serial_print_int (z : Z) : Boot unit := serial_write [SNumber z].
Definition Serial_println (s : string) : Boot unit :=
  serial_write [SText s; SNewline].
Definition Serial_println_empty : Boot unit := serial_write [SNewline].

Definition WiFi_begin (name pass : string) : Boot unit :=
  fun m =>
    (Some tt,
     mkMachine (world m) (web m) (listening m) (serial_out m)
       (mkRadio (status_at (radio m)) (polls (radio m))
                (Some (name, pass)) (rssi (radio m)))).

Definition WiFi_status : Boot wl_status_t :=
  fun m =>
    (Some (status_at (radio m) (polls (radio m))),
     mkMachine (world m) (web m) (listening m) (serial_out m)
       (mkRadio (status_at (radio m)) (S (polls (radio m)))
                (joining (radio m)) (rssi (radio m)))).

Definition WiFi_localIP : Boot string :=
  fun m => (Some (localIP (platform (world m))), m).
Definition WiFi_macAddress : Boot string :=
  fun m => (Some (macAddress (platform (world m))), m).
Definition WiFi_RSSI : Boot Z := fun m => (Some (rssi (radio m)), m).

(** Calls on the global [server]. *)
Definition on_server (f : WebServer -> WebServer) : Boot unit :=
  fun m => (Some tt, mkMachine (world m) (f (web m)) (listening m)
                               (serial_out m) (radio m)).

Definition server_begin : Boot unit :=
  fun m => (Some tt, mkMachine (world m) (web m) true (serial_out m) (radio m)).

(** [while (WiFi.status() != WL_CONNECTED) { delay(500); Serial.print("."); }] *)
Fixpoint wait_connected (fuel : nat) : Boot unit :=
  match fuel with
  | O => fun m => (None, m)
  | S fuel' =>
      st ← WiFi_status;
      if decide (st <> WL_CONNECTED)
      then lift (delay 500);; Serial_print ".";; wait_connected fuel'
      else mret tt
  end.

Definition connectToWiFi (fuel : nat) : Boot unit :=
  Serial_println_empty;;
  Serial_print "连接WiFi: ";;
  Serial_println ssid;;
  WiFi_begin ssid password;;
  wait_connected fuel;;
  Serial_println_empty;;
  Serial_println "WiFi连接成功!".

Definition printNetworkInfo : Boot unit :=
  Serial_println "=== 网络信息 ===";;
  Serial_print "IP地址: ";;
  ip ← WiFi_localIP;
  Serial_println ip;;
  Serial_print "MAC地址: ";;
  mac ← WiFi_macAddress;
  Serial_println mac;;
  Serial_print "信号强度: ";;
  level ← WiFi_RSSI;
  Serial_print_int level;;
  Serial_println " dBm";;
  Serial_println "================".

(** The whole of [setup()]; [setup] above is its GPIO part. *)
Definition sketch_setup (fuel : nat) : Boot unit :=
  Serial_begin 115200;;
  lift setup;;
  connectToWiFi fuel;;
  on_server setupRoutes;;
  server_begin;;
  Serial_println "HTTP服务器已启动";;
  printNetworkInfo.

(** The machine at power-on. *)
Definition machine_on (b : Board) (p : Platform) (page : string)
  (st : nat -> wl_status_t) (level : Z) : Machine :=
  mkMachine (power_on b p page) WebServer_new false []
            (mkRadio st 0 None level).

(** The first call of [WiFi.status()] that returns [WL_CONNECTED], from
    call [k] on, is the one [n] calls later. *)
Definition first_connected (st : nat -> wl_status_t) (k n : nat) : Prop :=
  (forall i, (i < n)%nat -> st (k + i)%nat <> WL_CONNECTED)
  /\ st (k + n)%nat = WL_CONNECTED.

(** The machine after [dots] unsuccessful polls followed by [extra]
    more calls of [WiFi.status()]. *)
Definition polled (dots extra : nat) (m : Machine) : Machine :=
  mkMachine (world m) (web m) (listening m)
    (serial_out m ++ replicate dots (SText "."))
    (mkRadio (status_at (radio m)) (polls (radio m) + dots + extra)
             (joining (radio m)) (rssi (radio m))).

(** The serial output of [connectToWiFi] when it returns after [n] dots. *)
Definition connect_log (n : nat) : list SerialItem :=
  [SNewline; SText "连接WiFi: "; SText "Tom"; SNewline]
  ++ replicate n (SText ".")
  ++ [SNewline; SText "WiFi连接成功!"; SNewline].

(** The serial output of [printNetworkInfo]. *)
Definition network_log (p : Platform) (level : Z) : list SerialItem :=
  [SText "=== 网络信息 ==="; SNewline;
   SText "IP地址: "; SText (localIP p); SNewline;
   SText "MAC地址: "; SText (macAddress p); SNewline;
   SText "信号强度: "; SNumber level; SText " dBm"; SNewline;
   SText "================"; SNewline].

(** The requests a run of the loop served, in order. *)
Definition requests_of (ts : list Turn) : list Request := omap client ts.

(** Two worlds agree on what the actuator routes command. *)
Definition same_actuation (w1 w2 : World) : Prop :=
  ledState (vars w1) = ledState (vars w2)
  /\ relayState (vars w1) = relayState (vars w2)
  /\ gpio_out (board w1) = gpio_out (board w2).

(** * Proofs *)

(** Unfolding of the monadic plumbing. *)
Create HintDb sketch.
#[local] Hint Unfold exec mbind mret Sketch_bind Sketch_ret
  get_vars put_vars get_board put_board get_platform
  set_ledState set_relayState set_analogValue set_buttonState
  pinMode digitalWrite digitalRead analogRead delay server_send : sketch.

Ltac sketch_red := repeat (progress (autounfold with sketch; cbn)).

Section ClosedForms.
Variable w : World.

Lemma root_handler_eq :
  exec root_handler w
  = replied (mkResponse 200 "text/html" (Text (html (vars w)))) w.
Proof. reflexivity. Qed.

Lemma device_info_handler_eq :
  exec device_info_handler w
  = replied (mkResponse 200 "application/json"
                        (Serialized (info_doc (platform w)))) w.
Proof. reflexivity. Qed.

Lemma sensor_data_handler_eq :
  exec sensor_data_handler w
  = replied (mkResponse 200 "application/json"
                        (Serialized (sensor_doc (vars w)))) w.
Proof. reflexivity. Qed.

Lemma not_found_handler_eq :
  exec not_found_handler w = replied not_found_response w.
Proof. reflexivity. Qed.

Lemma led_on_handler_eq : exec led_on_handler w = led_written true w.
Proof. reflexivity. Qed.

Lemma led_off_handler_eq : exec led_off_handler w = led_written false w.
Proof. reflexivity. Qed.

Lemma led_toggle_handler_eq :
  exec led_toggle_handler w = led_written (negb (ledState (vars w))) w.
Proof.
  unfold led_toggle_handler, led_written; sketch_red.
  destruct (ledState (vars w)); reflexivity.
Qed.

Lemma relay_on_handler_eq : exec relay_on_handler w = relay_written true w.
Proof. reflexivity. Qed.

Lemma relay_off_handler_eq : exec relay_off_handler w = relay_written false w.
Proof. reflexivity. Qed.

Lemma updateSensorData_eq :
  exec updateSensorData w
  = sampled (uint16_t (default 0 (adc_in (board w) !! analogPin)))
            (default false (gpio_in (board w) !! buttonPin)) w.
Proof.
  unfold updateSensorData, sampled; sketch_red.
  destruct (default false (gpio_in (board w) !! buttonPin)); reflexivity.
Qed.

Lemma setup_eq :
  exec setup w
  = mkWorld (vars w)
      (mkBoard
         (<[buttonPin := INPUT]>
            (<[relayPin := OUTPUT]>
               (<[ledPin := OUTPUT]> (gpio_mode (board w)))))
         (<[relayPin := false]> (<[ledPin := false]> (gpio_out (board w))))
         (gpio_in (board w)) (adc_in (board w)))
      (platform w) (sent w).
Proof. reflexivity. Qed.
End ClosedForms.

(** ** Dispatch *)

(** The table is what [setupRoutes] registered, in order. *)
Lemma registered_routes :
  map (fun h => (h_method h, h_uri h)) (handlers server) = fixed_routes.
Proof. reflexivity. Qed.

Lemma canHandle_GET uri fn m u :
  canHandle (mkHandler uri HTTP_GET fn) m u = true ->
  (m, u) = (HTTP_GET, uri).
Proof.
  unfold canHandle; cbn [h_method h_uri].
  intros [Hm Hu]%andb_prop.
  apply String.eqb_eq in Hu as <-.
  apply orb_prop in Hm as [Hm | Hm]; apply bool_decide_eq_true in Hm;
    [discriminate | by subst].
Qed.

Lemma canHandle_same uri fn :
  canHandle (mkHandler uri HTTP_GET fn) HTTP_GET uri = true.
Proof. unfold canHandle; cbn. apply String.eqb_refl. Qed.

Lemma handleRequest_dispatched r : dispatched r (handleRequest server r).
Proof.
  destruct r as [m u]. unfold handleRequest; cbn.
  repeat match goal with
  | |- context [canHandle ?h m u] =>
      let E := fresh "E" in
      destruct (canHandle h m u) eqn:E;
      [ apply canHandle_GET in E; injection E as -> ->; cbn;
        first [ by apply to_root | by apply to_info | by apply to_led_on
              | by apply to_led_off | by apply to_led_toggle
              | by apply to_relay_on | by apply to_relay_off
              | by apply to_sensor ]
      | ]
  end.
  apply to_not_found; cbn.
  unfold fixed_routes; intros Hin.
  repeat match goal with
  | H : _ ∈ _ :: _ |- _ => apply elem_of_cons in H as [H | H]
  | H : (m, u) = (HTTP_GET, _) |- _ => injection H as -> ->
  | H : _ ∈ [] |- _ => by apply elem_of_nil in H
  end.
  all: match goal with
       | E : canHandle _ HTTP_GET _ = false |- _ =>
           by rewrite canHandle_same in E
       end.
Qed.

(** ** Serving the actuator routes *)

Lemma serve_led op w :
  serve (led_request op) w = led_written (led_fold (ledState (vars w)) op) w.
Proof.
  destruct op; [reflexivity | reflexivity | apply led_toggle_handler_eq].
Qed.

Lemma serve_relay op w :
  serve (relay_request op) w = relay_written (relay_level op) w.
Proof. destruct op; reflexivity. Qed.

Lemma exec_bind {A B} (m : Sketch A) (k : A -> Sketch B) w :
  exec (m ≫= k) w = exec (k (m w).1) (m w).2.
Proof. unfold exec, mbind, Sketch_bind. by destruct (m w). Qed.

Lemma pin_led_written b w : pin_output ledPin (led_written b w) = b.
Proof. unfold pin_output; cbn. by rewrite lookup_insert_eq. Qed.

Lemma pin_relay_written b w : pin_output relayPin (relay_written b w) = b.
Proof. unfold pin_output; cbn. by rewrite lookup_insert_eq. Qed.

Lemma pin_relay_led_written b w :
  pin_output relayPin (led_written b w) = pin_output relayPin w.
Proof. unfold pin_output; cbn. by rewrite lookup_insert_ne. Qed.

Lemma pin_led_relay_written b w :
  pin_output ledPin (relay_written b w) = pin_output ledPin w.
Proof. unfold pin_output; cbn. by rewrite lookup_insert_ne. Qed.

Lemma serve_all_snoc rs r w :
  serve_all (rs ++ [r]) w = serve r (serve_all rs w).
Proof. unfold serve_all. by rewrite fold_left_app. Qed.

Lemma run_snoc ts t w : run (ts ++ [t]) w = exec (turn t) (run ts w).
Proof. unfold run. by rewrite fold_left_app. Qed.

(** The LED state after a sequence of LED requests is the fold of the
    sequence over the state before it. *)
Lemma led_requests_fold ops w :
  ledState (vars (serve_all (map led_request ops) w))
  = fold_left led_fold ops (ledState (vars w)).
Proof.
  revert w; induction ops as [|op ops IH]; intros w; [reflexivity|].
  cbn [map fold_left serve_all]. fold (serve_all (map led_request ops)).
  by rewrite IH, serve_led.
Qed.

Lemma led_requests_trace ops w :
  gpio_mode (board w) !! ledPin = Some OUTPUT ->
  Forall led_pin_shows_state (serve_trace (map led_request ops) w).
Proof.
  revert w; induction ops as [|op ops IH]; intros w Hw; cbn [map serve_trace].
  - constructor.
  - rewrite serve_led. constructor; [|by apply IH].
    split; [exact Hw | apply pin_led_written].
Qed.

Lemma led_requests_mode ops w :
  gpio_mode (board (serve_all (map led_request ops) w)) = gpio_mode (board w).
Proof.
  revert w; induction ops as [|op ops IH]; intros w; [reflexivity|].
  cbn [map fold_left serve_all]. fold (serve_all (map led_request ops)).
  by rewrite IH, serve_led.
Qed.

Lemma booted_led_pin b p page : led_pin_shows_state (booted b p page).
Proof.
  unfold led_pin_shows_state, booted, pin_output. rewrite setup_eq; cbn.
  split.
  - do 2 (rewrite lookup_insert_ne by done). apply lookup_insert_eq.
  - rewrite lookup_insert_ne by done. by rewrite lookup_insert_eq.
Qed.

Lemma serve_trace_length rs w : length (serve_trace rs w) = length rs.
Proof. revert w; induction rs; intros; cbn; [done | by f_equal]. Qed.

(** C1.  From the booted state (LED variable [false], LED pin low), after
    any sequence of LED on/off/toggle requests the LED variable is the
    left fold of the sequence over [false] (on gives [true], off gives
    [false], toggle negates) and the LED pin, driven as an output, is at
    the level of the LED variable; the same equality holds in the world
    observed after each single request of the sequence. *)
Theorem led_sequence_fold_and_pin (b : Board) (p : Platform) (page : string)
  (ops : list LedOp) :
  let w0 := booted b p page in
  let rs := map led_request ops in
  ledState (vars w0) = false
  /\ ledState (vars (serve_all rs w0)) = fold_left led_fold ops false
  /\ led_pin_shows_state (serve_all rs w0)
  /\ length (serve_trace rs w0) = length ops
  /\ Forall led_pin_shows_state (serve_trace rs w0).
Proof.
  intros w0 rs.
  destruct (booted_led_pin b p page) as [Hmode Hpin]. fold w0 in Hmode, Hpin.
  split; [reflexivity|]. split; [|split; [|split]].
  - unfold rs. by rewrite led_requests_fold.
  - destruct ops as [|op ops _] using rev_ind; [by split|].
    unfold rs. rewrite map_app; cbn [map]. rewrite serve_all_snoc, serve_led.
    split; [|apply pin_led_written].
    change (gpio_mode (board (serve_all (map led_request ops) w0)) !! ledPin
            = Some OUTPUT).
    by rewrite led_requests_mode.
  - unfold rs. by rewrite serve_trace_length, length_map.
  - by apply led_requests_trace.
Qed.

(** C6.  [GET /api/led/on] is idempotent: from any world the LED variable
    is [true] after the first request and [true] after the second, and
    the second request changes neither the variables nor the board. *)
Theorem led_on_idempotent (w : World) :
  let w1 := serve (led_request LedOn) w in
  let w2 := serve (led_request LedOn) w1 in
  ledState (vars w1) = true
  /\ ledState (vars w2) = true
  /\ vars w2 = vars w1
  /\ board w2 = board w1.
Proof.
  intros w1 w2. unfold w2, w1. rewrite !serve_led. cbn.
  repeat split. by rewrite insert_insert_eq.
Qed.

(** C5.  From any world, [GET /api/relay/on] followed by
    [GET /api/relay/off] leaves the relay variable [false]; the second
    request sends one response, with status 200, whose [success] member
    is [true] and whose [relay_state] member is [false]. *)
Theorem relay_on_then_off (w : World) :
  let w1 := serve (relay_request RelayOn) w in
  let w2 := serve (relay_request RelayOff) w1 in
  relayState (vars w2) = false
  /\ exists doc,
       sent w2
       = (sent w1 ++ [mkResponse 200 "application/json" (Serialized doc)])%list
       /\ doc_get "success" doc = Some (JBool true)
       /\ doc_get "relay_state" doc = Some (JBool false).
Proof.
  intros w1 w2. unfold w2, w1. rewrite !serve_relay. cbn.
  split; [reflexivity|]. eexists; split; [reflexivity|]. by split.
Qed.

(** C9.  Each of the five actuator routes answers with what
    [sendSuccessResponse] sends in the world the route has just updated:
    one response, status 200, whose document has exactly the members
    [success] (true), [message], [led_state], [relay_state], in this
    order, the last two holding the values of the state variables after
    the request. *)
Theorem actuator_response_shape (a : ActuatorOp) (w : World) :
  let w' := serve (actuator_request a) w in
  exists message,
    let resp :=
      mkResponse 200 "application/json"
        (Serialized [("success", JBool true);
                     ("message", JString message);
                     ("led_state", JBool (ledState (vars w')));
                     ("relay_state", JBool (relayState (vars w')))]) in
    sent w' = (sent w ++ [resp])%list
    /\ sent (exec (sendSuccessResponse message) w') = (sent w' ++ [resp])%list.
Proof.
  intros w'. unfold w'.
  destruct a as [op | op]; cbn [actuator_request].
  - rewrite serve_led. eexists; split; reflexivity.
  - rewrite serve_relay. eexists; split; reflexivity.
Qed.

(** ** Serving an arbitrary request *)

Lemma serve_served r w : served r w (serve r w).
Proof.
  unfold serve.
  destruct (handleRequest_dispatched r) as [E|E|E|E|E|E|E|E|E].
  - rewrite root_handler_eq. apply served_read. by left.
  - rewrite device_info_handler_eq. apply served_read. by right; left.
  - rewrite led_on_handler_eq. by apply (served_led r w LedOn).
  - rewrite led_off_handler_eq. by apply (served_led r w LedOff).
  - rewrite led_toggle_handler_eq. by apply (served_led r w LedToggle).
  - rewrite relay_on_handler_eq. by apply (served_relay r w RelayOn).
  - rewrite relay_off_handler_eq. by apply (served_relay r w RelayOff).
  - rewrite sensor_data_handler_eq. apply served_read. by right; right; left.
  - rewrite not_found_handler_eq. apply served_read. by right; right; right.
Qed.

(** No request touches the input side of the board, the platform data
    or the sampled values. *)
Lemma serve_inputs r w :
  gpio_in (board (serve r w)) = gpio_in (board w)
  /\ adc_in (board (serve r w)) = adc_in (board w)
  /\ analogValue (vars (serve r w)) = analogValue (vars w)
  /\ buttonState (vars (serve r w)) = buttonState (vars w).
Proof. by destruct (serve_served r w). Qed.

Lemma serve_pins_follow_state r w :
  pins_follow_state w -> pins_follow_state (serve r w).
Proof.
  intros [Hled Hrelay]. unfold pins_follow_state.
  destruct (serve_served r w) as [resp _ | op _ | op _].
  - done.
  - by rewrite pin_led_written, pin_relay_led_written.
  - by rewrite pin_relay_written, pin_led_relay_written.
Qed.

(** ** One turn of the loop *)

Lemma present_eq a d w : exec (present a d) w = presented a d w.
Proof. reflexivity. Qed.

Lemma handleClient_eq c w : exec (handleClient server c) w = handled c w.
Proof. by destruct c. Qed.

(** [loop] serves the pending request first and samples afterwards. *)
Lemma loop_eq c w :
  exec (loop c) w = exec updateSensorData (exec (handleClient server c) w).
Proof. unfold loop. by rewrite !exec_bind. Qed.

Lemma turn_eq t w :
  exec (turn t) w
  = exec updateSensorData
      (handled (client t) (presented (analog_level t) (button_level t) w)).
Proof. unfold turn. by rewrite exec_bind, loop_eq, handleClient_eq. Qed.

Lemma handled_inputs c w :
  gpio_in (board (handled c w)) = gpio_in (board w)
  /\ adc_in (board (handled c w)) = adc_in (board w).
Proof.
  destruct c as [r|]; [|done].
  by destruct (serve_inputs r w) as (? & ? & _).
Qed.

Lemma uint16_t_small a : 0 <= a < 65536 -> uint16_t a = a.
Proof. apply Z.mod_small. Qed.

(** After a turn the sampled variables hold the levels of that turn. *)
Lemma turn_samples t w :
  0 <= analog_level t < 65536 ->
  analogValue (vars (exec (turn t) w)) = analog_level t
  /\ buttonState (vars (exec (turn t) w)) = button_level t.
Proof.
  intros Ha. rewrite turn_eq, updateSensorData_eq.
  destruct (handled_inputs (client t)
              (presented (analog_level t) (button_level t) w)) as [-> ->].
  cbn. rewrite !lookup_insert_eq. cbn. by rewrite uint16_t_small.
Qed.

Lemma turn_pins_follow_state t w :
  pins_follow_state w -> pins_follow_state (exec (turn t) w).
Proof.
  intros Hw. rewrite turn_eq, updateSensorData_eq.
  assert (pins_follow_state
            (handled (client t)
               (presented (analog_level t) (button_level t) w))) as H.
  { destruct (client t) as [r|]; [apply serve_pins_follow_state|]; exact Hw. }
  exact H.
Qed.

Lemma booted_pins_follow_state b p page :
  pins_follow_state (booted b p page).
Proof.
  unfold booted, pins_follow_state, pin_output. rewrite setup_eq; cbn.
  rewrite lookup_insert_eq, lookup_insert_ne by done.
  by rewrite lookup_insert_eq.
Qed.

Lemma run_pins_follow_state ts w :
  pins_follow_state w -> pins_follow_state (run ts w).
Proof.
  revert w; induction ts as [|t ts IH]; intros w Hw; [exact Hw|].
  apply IH. by apply turn_pins_follow_state.
Qed.

(** C4.  Each LED route and each relay route writes the output pin in the
    same handler that assigns the state variable: from any world, the
    world an LED route leaves has the LED pin at the level of the LED
    variable, and the world a relay route leaves has the relay pin at
    the level of the relay variable.  Hence in every world observed
    between turns of the loop, from boot on and whatever the requests
    and input levels were, both pins are at the levels of their
    variables. *)
Theorem pin_written_with_state :
  (forall (op : LedOp) (w : World),
     let w' := serve (led_request op) w in
     pin_output ledPin w' = ledState (vars w'))
  /\ (forall (op : RelayOp) (w : World),
        let w' := serve (relay_request op) w in
        pin_output relayPin w' = relayState (vars w'))
  /\ (forall (b : Board) (p : Platform) (page : string) (ts : list Turn),
        pins_follow_state (run ts (booted b p page))).
Proof.
  split; [|split].
  - intros op w w'. unfold w'. rewrite serve_led. apply pin_led_written.
  - intros op w w'. unfold w'. rewrite serve_relay. apply pin_relay_written.
  - intros b p page ts.
    apply run_pins_follow_state, booted_pins_follow_state.
Qed.

(** C2.  A request whose (method, path) is none of the fixed routes is
    answered, in any world, by the not-found handler: the call returns,
    the world changes by exactly one more response, that response has
    status 404, and its document has an [error] member equal to [true]
    and a [message] member. *)
Theorem unmatched_request_404 (r : Request) (w : World) :
  (req_method r, req_uri r) ∉ fixed_routes ->
  exists doc message,
    handleRequest server r w
    = (tt, replied (mkResponse 404 "application/json" (Serialized doc)) w)
    /\ doc_get "error" doc = Some (JBool true)
    /\ doc_get "message" doc = Some (JString message).
Proof.
  intros Hr.
  assert (handleRequest server r = not_found_handler) as ->.
  { destruct (handleRequest_dispatched r) as [E|E|E|E|E|E|E|E|E];
      try reflexivity; subst r; exfalso; apply Hr; cbn; unfold fixed_routes;
      set_solver. }
  by eexists _, _.
Qed.

Lemma unmatched_request_404_witness :
  exists doc message,
    handleRequest server (mkRequest HTTP_POST "/api/led/on")
      (power_on (mkBoard ∅ ∅ ∅ ∅) (mkPlatform "" "" 0 0) "")
    = (tt, replied (mkResponse 404 "application/json" (Serialized doc))
             (power_on (mkBoard ∅ ∅ ∅ ∅) (mkPlatform "" "" 0 0) ""))
    /\ doc_get "error" doc = Some (JBool true)
    /\ doc_get "message" doc = Some (JString message).
Proof.
  apply (unmatched_request_404 (mkRequest HTTP_POST "/api/led/on")).
  cbn. unfold fixed_routes. intros H.
  repeat (apply elem_of_cons in H as [H | H]; [discriminate|]).
  by apply elem_of_nil in H.
Defined.

(** C7.  Whatever 16-bit value [a] the analog pin and level [d] the
    button pin present, in any world: the two reads of a sampling pass
    return [a] and [d], and after the pass [analogValue] is [a] and
    [buttonState] is [d], whatever the two variables held before; the
    pass changes nothing else. *)
Theorem sampling_pass_stores_readings (w : World) (a : Z) (d : bool) :
  0 <= a < 65536 ->
  let w0 := exec (present a d) w in
  let w' := exec updateSensorData w0 in
  (analogRead analogPin w0).1 = a
  /\ (digitalRead buttonPin w0).1 = bool_to_int d
  /\ analogValue (vars w') = a
  /\ buttonState (vars w') = d
  /\ w' = sampled a d w0.
Proof.
  intros Ha w0 w'.
  assert (uint16_t (default 0 (adc_in (board w0) !! analogPin)) = a) as Eadc.
  { unfold w0. rewrite present_eq; cbn.
    rewrite lookup_insert_eq; cbn. by apply uint16_t_small. }
  assert (default false (gpio_in (board w0) !! buttonPin) = d) as Ein.
  { unfold w0. rewrite present_eq; cbn. by rewrite lookup_insert_eq. }
  assert (w' = sampled a d w0) as Ew.
  { unfold w'. by rewrite updateSensorData_eq, Eadc, Ein. }
  repeat split.
  - unfold analogRead; sketch_red. exact Eadc.
  - unfold digitalRead; sketch_red. by rewrite Ein.
  - by rewrite Ew.
  - by rewrite Ew.
  - exact Ew.
Qed.

Lemma sampling_pass_stores_readings_witness :
  let w := power_on (mkBoard ∅ ∅ ∅ ∅) (mkPlatform "" "" 0 0) "" in
  let w0 := exec (present 2048 true) w in
  let w' := exec updateSensorData w0 in
  (analogRead analogPin w0).1 = 2048
  /\ (digitalRead buttonPin w0).1 = bool_to_int true
  /\ analogValue (vars w') = 2048
  /\ buttonState (vars w') = true
  /\ w' = sampled 2048 true w0.
Proof.
  apply (sampling_pass_stores_readings
           (power_on (mkBoard ∅ ∅ ∅ ∅) (mkPlatform "" "" 0 0) "") 2048 true).
  lia.
Defined.

(** ** Write ownership *)

Lemma led_request_not_read_only op : ~ read_only (led_request op).
Proof.
  unfold read_only, fixed_routes.
  destruct op; intros [H | [H | [H | H]]]; try discriminate;
    apply H; cbn; set_solver.
Qed.

Lemma relay_request_not_read_only op : ~ read_only (relay_request op).
Proof.
  unfold read_only, fixed_routes.
  destruct op; intros [H | [H | [H | H]]]; try discriminate;
    apply H; cbn; set_solver.
Qed.

(** C8.  Who writes which variable.  Serving a request that is not an
    LED request leaves [ledState] as it was; serving one that is not a
    relay request leaves [relayState] as it was; serving any request
    leaves [analogValue] and [buttonState] as they were; a sampling pass
    leaves [ledState] and [relayState] as they were; and serving [GET /],
    [GET /api/device/info], [GET /api/sensor/data] or a request of no
    route leaves all the variables as they were. *)
Theorem write_ownership :
  (forall (r : Request) (w : World),
     (forall op, r <> led_request op) ->
     ledState (vars (serve r w)) = ledState (vars w))
  /\ (forall (r : Request) (w : World),
        (forall op, r <> relay_request op) ->
        relayState (vars (serve r w)) = relayState (vars w))
  /\ (forall (r : Request) (w : World),
        analogValue (vars (serve r w)) = analogValue (vars w)
        /\ buttonState (vars (serve r w)) = buttonState (vars w))
  /\ (forall w : World,
        ledState (vars (exec updateSensorData w)) = ledState (vars w)
        /\ relayState (vars (exec updateSensorData w)) = relayState (vars w))
  /\ (forall (r : Request) (w : World),
        read_only r -> vars (serve r w) = vars w).
Proof.
  repeat apply conj.
  - intros r w Hr.
    destruct (serve_served r w) as [resp _ | op E | op _]; [done | | done].
    by destruct (Hr op).
  - intros r w Hr.
    destruct (serve_served r w) as [resp _ | op _ | op E]; [done | done |].
    by destruct (Hr op).
  - intros r w. by destruct (serve_inputs r w) as (_ & _ & ? & ?).
  - intros w. by rewrite updateSensorData_eq.
  - intros r w Hr.
    destruct (serve_served r w) as [resp _ | op E | op E]; [done | |]; subst r.
    + by destruct (led_request_not_read_only op).
    + by destruct (relay_request_not_read_only op).
Qed.

Lemma write_ownership_witness :
  let w := power_on (mkBoard ∅ ∅ ∅ ∅) (mkPlatform "" "" 0 0) "" in
  ledState (vars (serve (relay_request RelayOn) w)) = ledState (vars w)
  /\ relayState (vars (serve (led_request LedOn) w)) = relayState (vars w)
  /\ vars (serve (mkRequest HTTP_GET "/api/sensor/data") w) = vars w.
Proof.
  intros w.
  destruct write_ownership as (Hled & Hrelay & _ & _ & Hread).
  split; [|split].
  - apply Hled. by intros [].
  - apply Hrelay. by intros [].
  - apply Hread. by right; right; left.
Defined.

(** ** What a sensor request reports *)

(** The sampled variables after a run are the levels of its last turn. *)
Lemma run_samples ts w :
  Forall (fun t => 0 <= analog_level t < 65536) ts ->
  analogValue (vars (run ts w))
  = from_option analog_level (analogValue (vars w)) (last ts)
  /\ buttonState (vars (run ts w))
     = from_option button_level (buttonState (vars w)) (last ts).
Proof.
  destruct ts as [|t ts _] using rev_ind; [done|].
  intros [_ Ht]%Forall_app. apply Forall_inv in Ht.
  rewrite run_snoc, last_snoc; cbn. by apply turn_samples.
Qed.

Lemma turn_sensor_sent t w :
  client t = Some sensor_request ->
  sent (exec (turn t) w)
  = (sent w ++ [mkResponse 200 "application/json"
                           (Serialized (sensor_doc (vars w)))])%list.
Proof. intros E. by rewrite turn_eq, updateSensorData_eq, E. Qed.

(** C10.  [loop] serves the pending request before it samples.  So when
    a turn of the loop serves [GET /api/sensor/data], after any number
    of earlier turns since boot, the response carries the analog value
    and button level presented in the turn before it ([0] and [false]
    when there was none), whatever levels are presented in the turn
    itself. *)
Theorem sensor_data_reports_previous_sample
  (b : Board) (p : Platform) (page : string) (ts : list Turn) (t : Turn) :
  Forall (fun t' => 0 <= analog_level t' < 65536) ts ->
  client t = Some sensor_request ->
  let w := run ts (booted b p page) in
  (forall c w0,
     exec (loop c) w0 = exec updateSensorData (exec (handleClient server c) w0))
  /\ exists doc,
       sent (exec (turn t) w)
       = (sent w ++ [mkResponse 200 "application/json" (Serialized doc)])%list
       /\ doc_get "analog_value" doc
          = Some (JInt (from_option analog_level 0 (last ts)))
       /\ doc_get "button_pressed" doc
          = Some (JBool (from_option button_level false (last ts))).
Proof.
  intros Hts Ht w. split; [apply loop_eq|].
  exists (sensor_doc (vars w)). split; [by apply turn_sensor_sent|].
  destruct (run_samples ts (booted b p page) Hts) as [Ha Hb].
  fold w in Ha, Hb. cbn. by rewrite Ha, Hb.
Qed.

Lemma sensor_data_reports_previous_sample_witness :
  let w := run [mkTurn None 1000 true]
             (booted (mkBoard ∅ ∅ ∅ ∅) (mkPlatform "" "" 0 0) "") in
  (forall c w0,
     exec (loop c) w0 = exec updateSensorData (exec (handleClient server c) w0))
  /\ exists doc,
       sent (exec (turn (mkTurn (Some sensor_request) 5 false)) w)
       = (sent w ++ [mkResponse 200 "application/json" (Serialized doc)])%list
       /\ doc_get "analog_value" doc = Some (JInt 1000)
       /\ doc_get "button_pressed" doc = Some (JBool true).
Proof.
  apply (sensor_data_reports_previous_sample
           (mkBoard ∅ ∅ ∅ ∅) (mkPlatform "" "" 0 0) ""
           [mkTurn None 1000 true] (mkTurn (Some sensor_request) 5 false)).
  - repeat constructor; cbn; lia.
  - reflexivity.
Defined.

(** ** The voltage field *)

(** [lit_3_3] is a binary64 value nearest to 3.3: it is finite and
    within half a unit in the last place, [2^-52], of [33/10]. *)
Lemma lit_3_3_nearest :
  match double_to_Q lit_3_3 with
  | Some q => Qle_bool (Qabs (q - (33 # 10))) (1 # (2 ^ 52)) = true
  | None => False
  end.
Proof. vm_compute. reflexivity. Qed.

Lemma lit_4095_exact :
  match double_to_Q lit_4095 with
  | Some q => Qeq_bool q (4095 # 1) = true
  | None => False
  end.
Proof. vm_compute. reflexivity. Qed.

(** All 4096 readings of a 12-bit converter, checked by evaluation. *)
Lemma voltage_checked :
  forallb voltage_within_tolerance (map Z.of_nat (seq 0 4096)) = true.
Proof. vm_compute. reflexivity. Qed.

Lemma voltage_of_close a :
  0 <= a <= 4095 ->
  exists q,
    double_to_Q (voltage_of a) = Some q
    /\ (Qabs (q - voltage_exact a) <= voltage_tolerance)%Q.
Proof.
  intros Ha.
  assert (voltage_within_tolerance a = true) as H.
  { eapply forallb_forall; [apply voltage_checked|].
    apply in_map_iff. exists (Z.to_nat a). split; [lia|].
    apply in_seq. lia. }
  unfold voltage_within_tolerance in H.
  destruct (double_to_Q (voltage_of a)) as [q|]; [|discriminate].
  exists q. split; [reflexivity|]. by apply Qle_bool_iff.
Qed.

(** C3.  For every world whose [analogValue] lies in [0, 4095], the
    response to [GET /api/sensor/data] has a [voltage] member holding a
    finite binary64 number that differs from the rational
    [analogValue * 3.3 / 4095] by at most [2^-50]. *)
Theorem sensor_voltage_field (w : World) :
  0 <= analogValue (vars w) <= 4095 ->
  exists doc v q,
    sent (serve sensor_request w)
    = (sent w ++ [mkResponse 200 "application/json" (Serialized doc)])%list
    /\ doc_get "voltage" doc = Some (JFloat v)
    /\ double_to_Q v = Some q
    /\ (Qabs (q - voltage_exact (analogValue (vars w))) <= voltage_tolerance)%Q.
Proof.
  intros Ha. destruct (voltage_of_close _ Ha) as (q & Hq & Hclose).
  exists (sensor_doc (vars w)), (voltage_of (analogValue (vars w))), q.
  by repeat split.
Qed.

Lemma sensor_voltage_field_witness :
  let w := sampled 2048 false
             (power_on (mkBoard ∅ ∅ ∅ ∅) (mkPlatform "" "" 0 0) "") in
  0 <= analogValue (vars w) <= 4095
  /\ exists doc v q,
       sent (serve sensor_request w)
       = (sent w ++ [mkResponse 200 "application/json" (Serialized doc)])%list
       /\ doc_get "voltage" doc = Some (JFloat v)
       /\ double_to_Q v = Some q
       /\ (Qabs (q - voltage_exact (analogValue (vars w)))
           <= voltage_tolerance)%Q.
Proof.
  intros w.
  assert (0 <= analogValue (vars w) <= 4095) as H by (cbn; lia).
  exact (conj H (sensor_voltage_field w H)).
Defined.

(** * Further properties of the sketch *)

(** ** Responses *)

Lemma unmatched_not_found r :
  (req_method r, req_uri r) ∉ fixed_routes ->
  handleRequest server r = not_found_handler.
Proof.
  intros Hr.
  destruct (handleRequest_dispatched r) as [E|E|E|E|E|E|E|E|E];
    try reflexivity; subst r; exfalso; apply Hr; cbn; unfold fixed_routes;
    set_solver.
Qed.

Lemma fixed_routes_GET m u : (m, u) ∈ fixed_routes -> m = HTTP_GET.
Proof.
  unfold fixed_routes. intros H.
  repeat (apply elem_of_cons in H as [H | H]; [by injection H|]).
  by apply elem_of_nil in H.
Qed.

(** The response of a request, by cases on what was dispatched. *)
Lemma serve_sent r w :
  exists resp,
    sent (serve r w) = (sent w ++ [resp])%list
    /\ code resp
       = (if decide ((req_method r, req_uri r) ∈ fixed_routes)
          then 200 else 404)
    /\ content_type resp
       = (if decide (r = root_request) then "text/html"
          else "application/json")
    /\ (r = root_request <-> content resp = Text (html (vars w)))
    /\ (r <> root_request -> exists doc, content resp = Serialized doc).
Proof.
  unfold serve.
  destruct (handleRequest_dispatched r) as [E|E|E|E|E|E|E|E|E];
    try (subst r; eexists; split; [reflexivity|];
         rewrite decide_True by (cbn; unfold fixed_routes; set_solver);
         split; [reflexivity|]; split; [reflexivity|];
         split; [by split|]; first [done | by eexists]).
  assert (r <> root_request) as Hne.
  { intros ->. apply E; cbn; unfold fixed_routes; set_solver. }
  eexists; split; [reflexivity|]. rewrite !decide_False by done.
  split; [reflexivity|]; split; [reflexivity|].
  split; [by split|]. by eexists.
Qed.

(** X1.  Every request, matched or not, is answered with exactly one
    response, appended to those already sent; its status is 404 when
    the (method, path) pair is none of the fixed routes and 200
    otherwise. *)
Theorem one_response_per_request (r : Request) (w : World) :
  exists resp,
    sent (serve r w) = (sent w ++ [resp])%list
    /\ code resp
       = if decide ((req_method r, req_uri r) ∈ fixed_routes) then 200 else 404.
Proof.
  destruct (serve_sent r w) as (resp & Hs & Hc & _). by exists resp.
Qed.

(** X2.  [GET /] is the only request answered with content type
    [text/html], and its body is the page held in [html]; every other
    request, the unmatched ones included, is answered with content type
    [application/json] and a serialised document. *)
Theorem html_only_at_root (r : Request) (w : World) :
  exists resp,
    answer r w = Some resp
    /\ content_type resp
       = (if decide (r = root_request) then "text/html"
          else "application/json")
    /\ (if decide (r = root_request)
        then content resp = Text (html (vars w))
        else exists doc, content resp = Serialized doc).
Proof.
  destruct (serve_sent r w) as (resp & Hs & _ & Ht & Hroot & Hdoc).
  exists resp. unfold answer. rewrite Hs, last_snoc.
  split; [reflexivity|]. split; [exact Ht|].
  destruct (decide (r = root_request)) as [E|E]; [by apply Hroot | by apply Hdoc].
Qed.

(** X3.  The routes answer [GET] only: a request with any other method,
    whatever its path, is answered by the not-found response and leaves
    the variables and the board untouched. *)
Theorem other_methods_rejected (r : Request) (w : World) :
  req_method r <> HTTP_GET ->
  serve r w = replied not_found_response w.
Proof.
  intros Hm. unfold serve. rewrite unmatched_not_found; [reflexivity|].
  intros Hin. by apply fixed_routes_GET in Hin.
Qed.

Lemma other_methods_rejected_witness :
  let w := power_on (mkBoard ∅ ∅ ∅ ∅) (mkPlatform "" "" 0 0) "" in
  serve (mkRequest HTTP_POST "/api/relay/on") w = replied not_found_response w.
Proof.
  intros w.
  apply (other_methods_rejected (mkRequest HTTP_POST "/api/relay/on") w).
  discriminate.
Defined.

(** ** Runs of the loop *)

Lemma turn_sent t w :
  exists more,
    sent (exec (turn t) w) = (sent w ++ more)%list
    /\ length more = match client t with Some _ => 1%nat | None => 0%nat end.
Proof.
  rewrite turn_eq, updateSensorData_eq; cbn [sent sampled].
  destruct (client t) as [r|]; cbn [handled].
  - destruct (serve_sent r (presented (analog_level t) (button_level t) w))
      as (resp & -> & _).
    by exists [resp].
  - exists []. by rewrite app_nil_r.
Qed.

(** X4.  The responses sent are append-only, one per pending request:
    after any run of the loop the responses sent before the run are
    still there, in place, followed by exactly as many new ones as turns
    had a request pending; a turn without a request sends nothing. *)
Theorem run_sends_one_per_request (ts : list Turn) (w : World) :
  exists more,
    sent (run ts w) = (sent w ++ more)%list
    /\ length more = requests_in ts.
Proof.
  revert w; induction ts as [|t ts IH]; intros w.
  - exists []. by rewrite app_nil_r.
  - cbn [run fold_left]. fold (run ts (exec (turn t) w)).
    destruct (IH (exec (turn t) w)) as (more2 & -> & Hlen2).
    destruct (turn_sent t w) as (more1 & -> & Hlen1).
    exists (more1 ++ more2)%list. rewrite <- app_assoc. split; [reflexivity|].
    rewrite length_app, Hlen1, Hlen2. unfold requests_in.
    rewrite filter_cons. by destruct (client t); cbn.
Qed.

Lemma same_frame_refl w : same_frame w w.
Proof. by repeat split. Qed.

Lemma same_frame_trans w1 w2 w3 :
  same_frame w1 w2 -> same_frame w2 w3 -> same_frame w1 w3.
Proof.
  intros (H1 & H2 & H3 & H4) (G1 & G2 & G3 & G4). repeat split.
  - by rewrite G1.
  - by rewrite G2.
  - by rewrite G3.
  - intros pin Hl Hr. by rewrite G4, H4.
Qed.

Lemma serve_same_frame r w : same_frame w (serve r w).
Proof.
  destruct (serve_served r w) as [resp _ | op _ | op _];
    repeat split; cbn; intros; by rewrite ?lookup_insert_ne.
Qed.

Lemma turn_same_frame t w : same_frame w (exec (turn t) w).
Proof.
  rewrite turn_eq, updateSensorData_eq.
  apply same_frame_trans
    with (handled (client t) (presented (analog_level t) (button_level t) w)).
  - destruct (client t) as [r|]; cbn [handled].
    + apply same_frame_trans
        with (presented (analog_level t) (button_level t) w);
        [by repeat split | apply serve_same_frame].
    + by repeat split.
  - by repeat split.
Qed.

Lemma run_same_frame ts w : same_frame w (run ts w).
Proof.
  revert w; induction ts as [|t ts IH]; intros w; [apply same_frame_refl|].
  cbn [run fold_left]. fold (run ts (exec (turn t) w)).
  eapply same_frame_trans; [apply turn_same_frame | apply IH].
Qed.

(** X5.  Two toggles in a row restore the variables: the LED variable is
    what it was, the LED pin is at that level, and nothing else of the
    board changed. *)
Theorem led_toggle_twice (w : World) :
  let w2 := serve (led_request LedToggle) (serve (led_request LedToggle) w) in
  vars w2 = vars w
  /\ pin_output ledPin w2 = ledState (vars w)
  /\ board w2
     = mkBoard (gpio_mode (board w))
               (<[ledPin := ledState (vars w)]> (gpio_out (board w)))
               (gpio_in (board w)) (adc_in (board w)).
Proof.
  intros w2. unfold w2. rewrite !serve_led. unfold pin_output; cbn.
  rewrite negb_involutive, insert_insert_eq, lookup_insert_eq.
  by destruct w as [[] ? ? ?].
Qed.

(** X6.  LED requests and relay requests commute: served in either
    order from the same world they leave the same variables and the
    same board. *)
Theorem led_relay_commute (lop : LedOp) (rop : RelayOp) (w : World) :
  let w1 := serve (relay_request rop) (serve (led_request lop) w) in
  let w2 := serve (led_request lop) (serve (relay_request rop) w) in
  vars w1 = vars w2 /\ board w1 = board w2.
Proof.
  intros w1 w2. unfold w1, w2. rewrite !serve_led, !serve_relay; cbn.
  split; [reflexivity|]. f_equal. by apply insert_insert_ne.
Qed.

(** X7.  The loop writes two output latches and nothing else of the
    GPIO configuration: after any run, from any world, the pin
    directions are unchanged and the output latch of every pin other
    than the LED's and the relay's holds what it held. *)
Theorem run_writes_only_led_and_relay (ts : list Turn) (w : World) (pin : Z) :
  pin <> ledPin -> pin <> relayPin ->
  gpio_mode (board (run ts w)) = gpio_mode (board w)
  /\ gpio_out (board (run ts w)) !! pin = gpio_out (board w) !! pin.
Proof.
  intros Hl Hr. destruct (run_same_frame ts w) as (_ & _ & Hmode & Hout).
  split; [exact Hmode | by apply Hout].
Qed.

Lemma run_writes_only_led_and_relay_witness :
  let ts := [mkTurn (Some (led_request LedOn)) 7 true;
             mkTurn (Some (relay_request RelayOn)) 9 false] in
  let w := booted (mkBoard ∅ ∅ ∅ ∅) (mkPlatform "" "" 0 0) "" in
  gpio_mode (board (run ts w)) = gpio_mode (board w)
  /\ gpio_out (board (run ts w)) !! buttonPin = gpio_out (board w) !! buttonPin.
Proof.
  intros ts w. by apply (run_writes_only_led_and_relay ts w buttonPin).
Defined.

(** X8.  The page is static: whatever requests were served and whatever
    was sampled since boot, [GET /] is answered with status 200 and the
    very page the sketch was started with. *)
Theorem root_page_static (b : Board) (p : Platform) (page : string)
  (ts : list Turn) :
  answer root_request (run ts (booted b p page))
  = Some (mkResponse 200 "text/html" (Text page)).
Proof.
  destruct (run_same_frame ts (booted b p page)) as (Hhtml & _).
  unfold answer, serve.
  change (handleRequest server root_request) with root_handler.
  rewrite root_handler_eq; cbn [sent replied]. by rewrite last_snoc, Hhtml.
Qed.


(** ** Responses and state *)

(** X10.  A sensor request that follows an actuator request reports the
    state that request commanded: the [led_state] and [relay_state]
    members of the sensor document equal those of the success document
    sent just before, and both hold the variables' values. *)
Theorem sensor_reflects_actuator (a : ActuatorOp) (w : World) :
  let w1 := serve (actuator_request a) w in
  exists ack data,
    answer (actuator_request a) w
    = Some (mkResponse 200 "application/json" (Serialized ack))
    /\ answer sensor_request w1
       = Some (mkResponse 200 "application/json" (Serialized data))
    /\ doc_get "led_state" ack = Some (JBool (ledState (vars w1)))
    /\ doc_get "led_state" data = Some (JBool (ledState (vars w1)))
    /\ doc_get "relay_state" ack = Some (JBool (relayState (vars w1)))
    /\ doc_get "relay_state" data = Some (JBool (relayState (vars w1))).
Proof.
  intros w1. unfold w1, answer.
  change (serve sensor_request ?x) with (exec sensor_data_handler x).
  rewrite sensor_data_handler_eq; cbn [sent replied]. rewrite last_snoc.
  destruct a as [op | op]; cbn [actuator_request].
  - rewrite serve_led; cbn [sent led_written]. rewrite last_snoc.
    by eexists _, _.
  - rewrite serve_relay; cbn [sent relay_written]. rewrite last_snoc.
    by eexists _, _.
Qed.

(** X11.  The message of a success response tells the state the request
    left: for an LED request it is "LED已打开" exactly when the LED
    variable is now [true] and "LED已关闭" otherwise (also for a toggle),
    and likewise for the relay. *)
Theorem success_message_tells_state (a : ActuatorOp) (w : World) :
  let w1 := serve (actuator_request a) w in
  exists doc,
    answer (actuator_request a) w
    = Some (mkResponse 200 "application/json" (Serialized doc))
    /\ doc_get "message" doc
       = Some (JString
                 match a with
                 | OnLed _ =>
                     if ledState (vars w1) then "LED已打开" else "LED已关闭"
                 | OnRelay _ =>
                     if relayState (vars w1) then "继电器已打开"
                     else "继电器已关闭"
                 end).
Proof.
  intros w1. unfold w1, answer.
  destruct a as [op | op]; cbn [actuator_request].
  - rewrite serve_led; cbn [sent led_written]. rewrite last_snoc.
    by eexists.
  - rewrite serve_relay; cbn [sent relay_written]. rewrite last_snoc.
    by eexists.
Qed.

(** X12.  No response document names a member twice: whatever the
    request and the world, the member names of the answer are pairwise
    distinct. *)
Theorem answer_members_distinct (r : Request) (w : World) :
  exists resp, answer r w = Some resp /\ NoDup (member_names resp).
Proof.
  unfold answer, serve.
  destruct (handleRequest_dispatched r) as [E|E|E|E|E|E|E|E|E].
  all: eexists; split;
    [ first [ rewrite root_handler_eq | rewrite device_info_handler_eq
            | rewrite led_on_handler_eq | rewrite led_off_handler_eq
            | rewrite led_toggle_handler_eq | rewrite relay_on_handler_eq
            | rewrite relay_off_handler_eq | rewrite sensor_data_handler_eq
            | rewrite not_found_handler_eq ];
      cbn [sent replied led_written relay_written]; apply last_snoc
    | cbn; by apply (bool_decide_unpack _) ].
Qed.

(** ** Sampling *)

(** X13.  A sampling pass repeated with the inputs unchanged stores the
    same values again: two passes in a row leave the world one pass
    leaves. *)
Theorem sampling_pass_idempotent (w : World) :
  exec updateSensorData (exec updateSensorData w) = exec updateSensorData w.
Proof. by rewrite !updateSensorData_eq. Qed.

(** X14.  [analogValue] never leaves the range of a [uint16_t]: it is 0
    at boot, and after any run of the loop, whatever the converter
    presented, it lies in [0, 65535]. *)
Theorem analog_value_range (b : Board) (p : Platform) (page : string)
  (ts : list Turn) :
  0 <= analogValue (vars (run ts (booted b p page))) < 65536.
Proof.
  destruct ts as [|t ts _] using rev_ind; [by cbn|].
  rewrite run_snoc, turn_eq, updateSensorData_eq; cbn.
  by apply Z.mod_pos_bound.
Qed.

(** ** The voltage over the converter's range *)

Lemma voltage_steps_checked :
  forallb voltage_step_checked (map Z.of_nat (seq 0 4095)) = true.
Proof. vm_compute. reflexivity. Qed.

Lemma voltage_step a :
  0 <= a < 4095 ->
  exists q q' top,
    double_to_Q (voltage_of a) = Some q
    /\ double_to_Q (voltage_of (a + 1)) = Some q'
    /\ double_to_Q lit_3_3 = Some top
    /\ (0 <= q)%Q /\ (q' <= top)%Q /\ (q < q')%Q.
Proof.
  intros Ha.
  assert (voltage_step_checked a = true) as H.
  { eapply forallb_forall; [apply voltage_steps_checked|].
    apply in_map_iff. exists (Z.to_nat a). split; [lia|].
    apply in_seq. lia. }
  unfold voltage_step_checked in H.
  destruct (double_to_Q (voltage_of a)) as [q|]; [|discriminate].
  destruct (double_to_Q (voltage_of (a + 1))) as [q'|]; [|discriminate].
  destruct (double_to_Q lit_3_3) as [top|]; [|discriminate].
  apply andb_prop in H as [[H0 Htop]%andb_prop Hlt].
  exists q, q', top. repeat split; [by apply Qle_bool_iff..|].
  apply Qnot_le_lt. intros Hle%Qle_bool_iff.
  by rewrite Hle in Hlt.
Qed.

Lemma voltage_Q_step a : 0 <= a < 4095 -> (voltage_Q a < voltage_Q (a + 1))%Q.
Proof.
  intros Ha. destruct (voltage_step a Ha) as (q & q' & top & E & E' & _ & _ & _ & H).
  unfold voltage_Q. by rewrite E, E'.
Qed.

Lemma voltage_Q_increasing (n : nat) a :
  0 <= a -> a + Z.of_nat (S n) <= 4095 ->
  (voltage_Q a < voltage_Q (a + Z.of_nat (S n)))%Q.
Proof.
  induction n as [|n IH]; intros H0 Hn.
  - apply voltage_Q_step. lia.
  - eapply Qlt_trans; [apply IH; lia|].
    replace (a + Z.of_nat (S (S n))) with (a + Z.of_nat (S n) + 1) by lia.
    apply voltage_Q_step. lia.
Qed.

(** X15.  Over the 12-bit range the reported voltage is strictly
    increasing in the reading: for readings [a < b] in [0, 4095] both
    voltages are finite doubles and the first is below the second, so
    distinct readings are never reported as the same voltage. *)
Theorem voltage_strictly_increasing (a b : Z) :
  0 <= a -> a < b -> b <= 4095 ->
  exists qa qb,
    double_to_Q (voltage_of a) = Some qa
    /\ double_to_Q (voltage_of b) = Some qb
    /\ (qa < qb)%Q.
Proof.
  intros H0 Hab Hb.
  destruct (voltage_of_close a ltac:(lia)) as (qa & Ea & _).
  destruct (voltage_of_close b ltac:(lia)) as (qb & Eb & _).
  exists qa, qb. split; [exact Ea|]. split; [exact Eb|].
  pose proof (voltage_Q_increasing (Z.to_nat (b - a - 1)) a H0) as H.
  replace (a + Z.of_nat (S (Z.to_nat (b - a - 1)))) with b in H by lia.
  unfold voltage_Q in H. rewrite Ea, Eb in H. apply H. lia.
Qed.

Lemma voltage_strictly_increasing_witness :
  exists qa qb,
    double_to_Q (voltage_of 1000) = Some qa
    /\ double_to_Q (voltage_of 3000) = Some qb
    /\ (qa < qb)%Q.
Proof. apply (voltage_strictly_increasing 1000 3000); lia. Defined.

(** X16.  Over the 12-bit range the reported voltage is a finite double
    between 0 and the double [3.3]; reading 0 gives exactly [0.0] and
    reading 4095 exactly the double [3.3]. *)
Theorem voltage_bounds (a : Z) :
  0 <= a <= 4095 ->
  voltage_of 0 = 0%float
  /\ voltage_of 4095 = lit_3_3
  /\ exists q top,
       double_to_Q (voltage_of a) = Some q
       /\ double_to_Q lit_3_3 = Some top
       /\ (0 <= q <= top)%Q.
Proof.
  intros Ha. split; [by vm_compute|]. split; [by vm_compute|].
  destruct (decide (a = 4095)) as [->|Hne].
  - destruct (voltage_step 4094 ltac:(lia)) as (q & q' & top & E & E' & Et & H0 & Htop & Hlt).
    exists q', top. change (4094 + 1) with 4095 in E'.
    repeat split; [exact E' | exact Et | | exact Htop].
    apply Qlt_le_weak. eapply Qle_lt_trans; [exact H0 | exact Hlt].
  - destruct (voltage_step a ltac:(lia)) as (q & q' & top & E & E' & Et & H0 & Htop & Hlt).
    exists q, top. repeat split; [exact E | exact Et | exact H0 |].
    apply Qlt_le_weak. eapply Qlt_le_trans; [exact Hlt | exact Htop].
Qed.

Lemma voltage_bounds_witness :
  voltage_of 0 = 0%float
  /\ voltage_of 4095 = lit_3_3
  /\ exists q top,
       double_to_Q (voltage_of 2048) = Some q
       /\ double_to_Q lit_3_3 = Some top
       /\ (0 <= q <= top)%Q.
Proof. apply (voltage_bounds 2048); lia. Defined.

(** ** Boot *)

Lemma wait_connected_returns n : forall fuel m,
  first_connected (status_at (radio m)) (polls (radio m)) n ->
  (n < fuel)%nat ->
  wait_connected fuel m = (Some tt, polled n 1 m).
Proof.
  induction n as [|n IH]; intros fuel m [Hbefore Hat] Hfuel.
  - destruct fuel as [|fuel]; [lia|].
    rewrite Nat.add_0_r in Hat.
    cbn [wait_connected]. unfold mbind, Boot_bind, WiFi_status.
    rewrite Hat. cbn. unfold polled; cbn.
    rewrite app_nil_r. do 3 f_equal. lia.
  - destruct fuel as [|fuel]; [lia|].
    pose proof (Hbefore 0%nat ltac:(lia)) as H0. rewrite Nat.add_0_r in H0.
    cbn [wait_connected]. unfold mbind, Boot_bind, WiFi_status.
    rewrite decide_True by exact H0. cbn.
    rewrite IH; [| |lia].
    + unfold polled; cbn. rewrite <- app_assoc. do 3 f_equal. lia.
    + cbn. split.
      * intros i Hi. specialize (Hbefore (S i) ltac:(lia)).
        by replace (S (polls (radio m)) + i)%nat
          with (polls (radio m) + S i)%nat by lia.
      * by replace (S (polls (radio m)) + n)%nat
          with (polls (radio m) + S n)%nat by lia.
Qed.

Lemma wait_connected_never fuel : forall m,
  (forall i, status_at (radio m) (polls (radio m) + i)%nat <> WL_CONNECTED) ->
  wait_connected fuel m = (None, polled fuel 0 m).
Proof.
  induction fuel as [|fuel IH]; intros m Hnever.
  - unfold polled; cbn. rewrite app_nil_r, !Nat.add_0_r.
    by destruct m as [? ? ? ? []].
  - pose proof (Hnever 0%nat) as H0. rewrite Nat.add_0_r in H0.
    cbn [wait_connected]. unfold mbind, Boot_bind, WiFi_status.
    rewrite decide_True by exact H0. cbn.
    rewrite IH.
    + unfold polled; cbn. rewrite <- app_assoc. do 3 f_equal. lia.
    + cbn. intros i. specialize (Hnever (S i)).
      by rewrite Nat.add_succ_r in Hnever.
Qed.

Create HintDb boot.
#[local] Hint Unfold mbind mret Boot_bind Boot_ret lift serial_write
  Serial_begin Serial_print Serial_print_int Serial_println
  Serial_println_empty WiFi_begin WiFi_localIP WiFi_macAddress WiFi_RSSI
  on_server server_begin : boot.

Ltac boot_red := repeat (progress (autounfold with boot; cbn)).

Lemma connectToWiFi_eq m n fuel :
  first_connected (status_at (radio m)) (polls (radio m)) n ->
  (n < fuel)%nat ->
  connectToWiFi fuel m
  = (Some tt,
     mkMachine (world m) (web m) (listening m)
       (serial_out m ++ connect_log n)
       (mkRadio (status_at (radio m)) (polls (radio m) + n + 1)
                (Some (ssid, password)) (rssi (radio m)))).
Proof.
  intros Hn Hfuel. unfold connectToWiFi. boot_red.
  rewrite (wait_connected_returns n) by done.
  unfold polled, connect_log; cbn.
  by rewrite <- !app_assoc.
Qed.

Lemma connectToWiFi_stuck m fuel :
  (forall i, status_at (radio m) (polls (radio m) + i)%nat <> WL_CONNECTED) ->
  connectToWiFi fuel m
  = (None,
     mkMachine (world m) (web m) (listening m)
       (serial_out m
        ++ [SNewline; SText "连接WiFi: "; SText "Tom"; SNewline]
        ++ replicate fuel (SText "."))
       (mkRadio (status_at (radio m)) (polls (radio m) + fuel)
                (Some (ssid, password)) (rssi (radio m)))).
Proof.
  intros Hnever. unfold connectToWiFi. boot_red.
  rewrite wait_connected_never by done.
  unfold polled; cbn. by rewrite <- !app_assoc, Nat.add_0_r.
Qed.

(** X17.  [connectToWiFi] returns as soon as [WiFi.status()] reports
    [WL_CONNECTED]: if that happens at the call that follows [n]
    unsuccessful ones, the function returns after exactly [n + 1] calls,
    having asked to join the compiled-in network and printed one dot per
    unsuccessful call between its opening and closing lines; it touches
    neither the world of the loop nor the server. *)
Theorem connectToWiFi_returns (m : Machine) (n fuel : nat) :
  first_connected (status_at (radio m)) (polls (radio m)) n ->
  (n < fuel)%nat ->
  connectToWiFi fuel m
  = (Some tt,
     mkMachine (world m) (web m) (listening m)
       (serial_out m ++ connect_log n)
       (mkRadio (status_at (radio m)) (polls (radio m) + n + 1)
                (Some (ssid, password)) (rssi (radio m)))).
Proof. apply connectToWiFi_eq. Qed.

Lemma connectToWiFi_returns_witness :
  let st := fun i => if decide (i = 2%nat) then WL_CONNECTED else WL_DISCONNECTED in
  let m := machine_on (mkBoard ∅ ∅ ∅ ∅) (mkPlatform "" "" 0 0) "" st (-60) in
  connectToWiFi 5 m
  = (Some tt,
     mkMachine (world m) (web m) (listening m)
       (serial_out m ++ connect_log 2)
       (mkRadio (status_at (radio m)) (polls (radio m) + 2 + 1)
                (Some (ssid, password)) (rssi (radio m)))).
Proof.
  intros st m. apply (connectToWiFi_returns m 2 5); [|lia].
  split; [|reflexivity].
  intros i Hi. subst m st; cbn. destruct (decide (i = 2%nat)); [lia | done].
Defined.

(** X18.  [connectToWiFi] retries for ever: as long as [WiFi.status()]
    does not report [WL_CONNECTED] it does not return, however many
    polls it is given; each poll prints one more dot, and the closing
    line is never printed. *)
Theorem connectToWiFi_never_returns (m : Machine) (fuel : nat) :
  (forall i, status_at (radio m) (polls (radio m) + i)%nat <> WL_CONNECTED) ->
  exists m',
    connectToWiFi fuel m = (None, m')
    /\ serial_out m'
       = (serial_out m
          ++ [SNewline; SText "连接WiFi: "; SText "Tom"; SNewline]
          ++ replicate fuel (SText "."))%list
    /\ polls (radio m') = (polls (radio m) + fuel)%nat
    /\ world m' = world m /\ web m' = web m /\ listening m' = listening m.
Proof.
  intros Hnever. rewrite connectToWiFi_stuck by done.
  eexists; split; [reflexivity|]. by repeat split.
Qed.

Lemma connectToWiFi_never_returns_witness :
  let m := machine_on (mkBoard ∅ ∅ ∅ ∅) (mkPlatform "" "" 0 0) ""
             (fun _ => WL_NO_SSID_AVAIL) (-60) in
  exists m',
    connectToWiFi 3 m = (None, m')
    /\ serial_out m'
       = (serial_out m
          ++ [SNewline; SText "连接WiFi: "; SText "Tom"; SNewline]
          ++ replicate 3 (SText "."))%list
    /\ polls (radio m') = (polls (radio m) + 3)%nat
    /\ world m' = world m /\ web m' = web m /\ listening m' = listening m.
Proof.
  intros m. apply (connectToWiFi_never_returns m 3). discriminate.
Defined.

Lemma printNetworkInfo_eq m :
  printNetworkInfo m
  = (Some tt,
     mkMachine (world m) (web m) (listening m)
       (serial_out m ++ network_log (platform (world m)) (rssi (radio m)))
       (radio m)).
Proof.
  destruct m as [w srv l out r]. unfold printNetworkInfo, network_log.
  cbv [mbind mret Boot_bind Boot_ret serial_write Serial_print
       Serial_print_int Serial_println WiFi_localIP WiFi_macAddress
       WiFi_RSSI world web listening serial_out radio].
  by rewrite <- !app_assoc.
Qed.

(** X19.  When the association succeeds after [n] unsuccessful polls,
    [setup()] returns with the world the loop starts from (the globals
    at their initialisers, both output pins low), the eight routes and
    the not-found handler registered on the server, the server started,
    and on the serial line: the connection log, the server banner, and
    the network information with the IP and MAC addresses that
    [/api/device/info] reports. *)
Theorem sketch_setup_returns (b : Board) (p : Platform) (page : string)
  (st : nat -> wl_status_t) (level : Z) (n fuel : nat) :
  first_connected st 0 n ->
  (n < fuel)%nat ->
  sketch_setup fuel (machine_on b p page st level)
  = (Some tt,
     mkMachine (booted b p page) server true
       (connect_log n ++ [SText "HTTP服务器已启动"; SNewline]
        ++ network_log p level)
       (mkRadio st (S n) (Some (ssid, password)) level)).
Proof.
  intros Hn Hfuel. unfold sketch_setup.
  unfold mbind at 1 2, Boot_bind at 1 2. cbn [Serial_begin mret Boot_ret].
  change (lift setup (machine_on b p page st level))
    with (Some tt, mkMachine (booted b p page) WebServer_new false []
                     (mkRadio st 0 None level)).
  cbn iota beta.
  unfold mbind at 1, Boot_bind at 1.
  rewrite (connectToWiFi_eq _ n fuel) by done.
  boot_red. rewrite printNetworkInfo_eq; cbn.
  unfold connect_log; cbn. rewrite <- !app_assoc; cbn.
  do 3 f_equal. lia.
Qed.

Lemma sketch_setup_returns_witness :
  let st := fun i => if decide (i = 1%nat) then WL_CONNECTED else WL_IDLE_STATUS in
  let b := mkBoard ∅ ∅ ∅ ∅ in
  let p := mkPlatform "192.168.1.7" "24:6F:28:00:00:01" 200000 1 in
  sketch_setup 4 (machine_on b p "" st (-60))
  = (Some tt,
     mkMachine (booted b p "") server true
       (connect_log 1 ++ [SText "HTTP服务器已启动"; SNewline]
        ++ network_log p (-60))
       (mkRadio st 2 (Some (ssid, password)) (-60))).
Proof.
  intros st b p. apply (sketch_setup_returns b p "" st (-60) 1 4); [|lia].
  split; [|reflexivity].
  intros i Hi. subst st; cbn. destruct (decide (i = 1%nat)); [lia | done].
Defined.

(** X20.  The server is not started before the association succeeds: as
    long as [WiFi.status()] does not report [WL_CONNECTED], [setup()]
    does not return, however many polls it is given, and the machine it
    is stuck in has the output pins initialised low but no route
    registered, the server not started and no response sent. *)
Theorem sketch_setup_waits_for_wifi (b : Board) (p : Platform) (page : string)
  (st : nat -> wl_status_t) (level : Z) (fuel : nat) :
  (forall i, st i <> WL_CONNECTED) ->
  exists m',
    sketch_setup fuel (machine_on b p page st level) = (None, m')
    /\ world m' = booted b p page
    /\ web m' = WebServer_new
    /\ listening m' = false
    /\ polls (radio m') = fuel.
Proof.
  intros Hnever. unfold sketch_setup.
  unfold mbind at 1 2, Boot_bind at 1 2. cbn [Serial_begin mret Boot_ret].
  change (lift setup (machine_on b p page st level))
    with (Some tt, mkMachine (booted b p page) WebServer_new false []
                     (mkRadio st 0 None level)).
  cbn iota beta.
  unfold mbind at 1, Boot_bind at 1.
  rewrite connectToWiFi_stuck by (intros i; apply Hnever).
  eexists; split; [reflexivity|]. by repeat split.
Qed.

Lemma sketch_setup_waits_for_wifi_witness :
  let b := mkBoard ∅ ∅ ∅ ∅ in
  let p := mkPlatform "" "" 0 0 in
  exists m',
    sketch_setup 10 (machine_on b p "" (fun _ => WL_CONNECT_FAILED) (-60))
    = (None, m')
    /\ world m' = booted b p ""
    /\ web m' = WebServer_new
    /\ listening m' = false
    /\ polls (radio m') = 10%nat.
Proof.
  intros b p.
  apply (sketch_setup_waits_for_wifi b p "" (fun _ => WL_CONNECT_FAILED) (-60) 10).
  discriminate.
Defined.

(** ** Actuation *)

(** X21.  Every route that sets a level (LED on, LED off, relay on,
    relay off; not the toggle) is idempotent: served twice in a row it
    leaves the variables and the board as serving it once does. *)
Theorem set_routes_idempotent (a : ActuatorOp) (w : World) :
  a <> OnLed LedToggle ->
  let w1 := serve (actuator_request a) w in
  let w2 := serve (actuator_request a) w1 in
  vars w2 = vars w1 /\ board w2 = board w1.
Proof.
  intros Ha w1 w2. unfold w2, w1.
  destruct a as [[] | []]; try done; cbn [actuator_request];
    rewrite ?serve_led, ?serve_relay; cbn;
    by rewrite insert_insert_eq.
Qed.

Lemma set_routes_idempotent_witness :
  let w := power_on (mkBoard ∅ ∅ ∅ ∅) (mkPlatform "" "" 0 0) "" in
  let w1 := serve (actuator_request (OnRelay RelayOn)) w in
  let w2 := serve (actuator_request (OnRelay RelayOn)) w1 in
  vars w2 = vars w1 /\ board w2 = board w1.
Proof.
  intros w.
  apply (set_routes_idempotent (OnRelay RelayOn) w). discriminate.
Defined.

Lemma serve_same_actuation r w1 w2 :
  same_actuation w1 w2 -> same_actuation (serve r w1) (serve r w2).
Proof.
  intros (Hl & Hr & Ho). unfold serve, same_actuation.
  destruct (handleRequest_dispatched r) as [E|E|E|E|E|E|E|E|E];
    rewrite ?root_handler_eq, ?device_info_handler_eq, ?led_on_handler_eq,
      ?led_off_handler_eq, ?led_toggle_handler_eq, ?relay_on_handler_eq,
      ?relay_off_handler_eq, ?sensor_data_handler_eq, ?not_found_handler_eq;
    cbn; by rewrite ?Hl, ?Hr, ?Ho.
Qed.

Lemma turn_same_actuation t w1 w2 :
  same_actuation w1 w2 ->
  same_actuation (exec (turn t) w1) (handled (client t) w2).
Proof.
  intros H. rewrite turn_eq, updateSensorData_eq.
  destruct (client t) as [r|]; cbn [handled].
  - by apply (serve_same_actuation r
                (presented (analog_level t) (button_level t) w1) w2).
  - exact H.
Qed.

(** X22.  Sampling never interferes with actuation: after any run of
    the loop the LED variable, the relay variable and the output latches
    are those that serving the run's requests alone, in order and with
    no sampling in between, would have left. *)
Theorem run_actuation_is_requests_only (ts : list Turn) (w : World) :
  same_actuation (run ts w) (serve_all (requests_of ts) w).
Proof.
  assert (forall w1 w2, same_actuation w1 w2 ->
            same_actuation (run ts w1) (serve_all (requests_of ts) w2)) as H.
  { induction ts as [|t ts IH]; intros w1 w2 Hw; [exact Hw|].
    cbn [run fold_left]. fold (run ts (exec (turn t) w1)).
    pose proof (turn_same_actuation t w1 w2 Hw) as Ht.
    unfold requests_of; cbn [omap list_omap].
    destruct (client t) as [r|]; cbn [handled] in Ht;
      [cbn [serve_all fold_left]; fold (serve_all (requests_of ts) (serve r w2))|];
      by apply IH. }
  by apply H.
Qed.
